(** * sqlite3dump: a shallow embedding of [dump.go]

    The dumper reads the schema catalog of a SQLite database through two
    queries and writes SQL text to an [io.Writer].  The embedding keeps the
    Go names.  The collaborators the code only sees through an interface
    are modelled by what the code can observe of them:

    - an [io.Writer] is the trace of the byte slices it accepted, together
      with a script saying which of the coming [Write] calls fail;
    - a [*sql.DB] is the answer it gives to each of the two catalog
      queries: a failure of [Prepare], a failure of [Query], or a row
      cursor whose [Scan] calls succeed or fail one by one;
    - the file system and the driver registry are the results of
      [os.Stat] and [sql.Open]. *)

From Stdlib Require Import String Ascii List Bool PeanoNat.
From Stdlib Require Import Sorting.Sorted Sorting.Permutation.
From Stdlib Require Import Structures.OrderedTypeEx.
Import ListNotations.

Local Open Scope string_scope.
Local Open Scope list_scope.

(** ** Go strings *)

Module strings.

(** The line feed and the double quote (bytes 10 and 34). *)
Definition LF : string := String (ascii_of_nat 10) EmptyString.
Definition DQ : string := String (ascii_of_nat 34) EmptyString.

(** [strings.HasPrefix]:
    [len(s) >= len(prefix) && s[:len(prefix)] == prefix]. *)
Definition HasPrefix (s prefix : string) : bool :=
  (String.length prefix <=? String.length s)%nat
  && (substring 0 (String.length prefix) s =? prefix)%string.

(** [strings.HasSuffix]:
    [len(s) >= len(suffix) && s[len(s)-len(suffix):] == suffix]. *)
Definition HasSuffix (s suffix : string) : bool :=
  (String.length suffix <=? String.length s)%nat
  && (substring (String.length s - String.length suffix)
                (String.length suffix) s =? suffix)%string.

(** [strings.Replace] of one double quote by two, without limit
    (count -1), as the source applies it to column names. *)
Fixpoint doubleQuotes (s : string) : string :=
  match s with
  | EmptyString => EmptyString
  | String c rest =>
      if Ascii.eqb c (ascii_of_nat 34)
      then String c (String c (doubleQuotes rest))
      else String c (doubleQuotes rest)
  end.

End strings.
Import strings.

(** ** Errors *)

(** Go [error] values that the dumper can meet.  [FailedToWrite] is the
    value built by
    [fmt.Errorf] of the format [failed to write '%q': %s] applied to
    the statement and the writer's error. *)
Inductive error : Type :=
| ErrNotExist (path : string)
| ErrStat (path reason : string)
| ErrDriver (reason : string)
| ErrWrite (reason : string)
| FailedToWrite (statement : string) (cause : error).

(** [os.IsNotExist]. *)
Definition os_IsNotExist (err : option error) : bool :=
  match err with
  | Some (ErrNotExist _) => true
  | _ => false
  end.

(** ** io.Writer *)

(** [written] is the sequence of slices accepted so far, oldest first.
    [faults] scripts the coming calls: the head decides the next [Write];
    when the script is exhausted every call succeeds.  A call that
    succeeds accepts the whole slice.  A call that fails may still have
    accepted the first bytes of its slice: [short] scripts, for the
    failing calls in turn, how many bytes that is; when [short] is
    exhausted a failing call accepts nothing. *)
Record Writer : Type := mkStream {
  written : list string;
  faults : list (option error);
  short : list nat
}.

(** A writer whose failing calls accept nothing. *)
Definition mkWriter (accepted : list string) (script : list (option error))
  : Writer :=
  mkStream accepted script [].

(** What a failing call that took [n] bytes of [p] leaves in the stream. *)
Definition fragment (n : nat) (p : string) : list string :=
  match n with
  | 0 => []
  | S _ => [substring 0 n p]
  end.

Definition Write (w : Writer) (p : string) : option error * Writer :=
  match faults w with
  | Some e :: rest =>
      (Some e,
       mkStream (written w ++ fragment (hd 0 (short w)) p) rest (tl (short w)))
  | None :: rest => (None, mkStream (written w ++ [p]) rest (short w))
  | [] => (None, mkStream (written w ++ [p]) [] (short w))
  end.

(** The bytes that reached the stream. *)
Definition output (w : Writer) : string := String.concat EmptyString (written w).

(** A writer none of whose coming calls fails. *)
Definition reliable (w : Writer) : Prop := Forall (fun f => f = None) (faults w).

(** ** The schema catalog as seen through database/sql *)

(** [type schema struct { Name string; Type string; SQL string }];
    the field [Type] is spelled [Typ] here. *)
Record schema : Type := mkSchema {
  Name : string;
  Typ : string;
  SQL : string
}.

(** The two queries [dumpDB] sends.

    [TableSchemas]:
      SELECT name, type, sql FROM sqlite_master
      WHERE sql NOT NULL AND type == 'table' ORDER BY name

    [OtherSchemas]:
      SELECT name, type, sql FROM sqlite_master
      WHERE sql NOT NULL AND type IN ('index', 'trigger', 'view') *)
Inductive query : Type := TableSchemas | OtherSchemas.

(** One [rows.Next(); rows.Scan(...)] step. *)
Inductive scan : Type :=
| Scanned (s : schema)
| ScanFails (e : error).

(** What [db.Prepare(q)] followed by [stmt.Query()] gives. *)
Inductive answer : Type :=
| PrepareFails (e : error)
| QueryFails (e : error)
| Rows (cursor : list scan) (rowsErr : option error).

Definition DB : Type := query -> answer.

(** A database that answers both queries without any failure. *)
Definition healthyDB (tables others : list schema) : DB :=
  fun q =>
    match q with
    | TableSchemas => Rows (map Scanned tables) None
    | OtherSchemas => Rows (map Scanned others) None
    end.

(** The loop of [getSchemas]: [schemas] is the slice built so far. *)
Fixpoint scanRows (cursor : list scan) (rowsErr : option error)
         (schemas : list schema) : list schema * option error :=
  match cursor with
  | [] => (schemas, rowsErr)
  | Scanned s :: rest => scanRows rest rowsErr (schemas ++ [s])
  | ScanFails e :: _ => (schemas, Some e)
  end.

Definition getSchemas (db : DB) (q : query) : list schema * option error :=
  match db q with
  | PrepareFails e => ([], Some e)
  | QueryFails e => ([], Some e)
  | Rows cursor rowsErr => scanRows cursor rowsErr []
  end.

(** ** The dumper *)

Record sqlite3dumper : Type := mkDumper {
  migration : bool;
  dropIfExists : bool;
  wrapWithTransaction : bool
}.

(** An [Option] is a function on a pointer to the dumper, which it
    updates in place; here it maps the old dumper to the new one. *)
Definition Option : Type := sqlite3dumper -> sqlite3dumper.

Definition newSqlite3Dumper (opts : list Option) : sqlite3dumper :=
  let dumper := mkDumper false false true in
  match opts with
  | [] => dumper
  | _ => fold_left (fun d option => option d) opts dumper
  end.

(** The statement chosen by the [switch] of [writeDropStatements];
    [None] stands for [continue]. *)
Definition dropStatement (s : schema) : option string :=
  if (Typ s =? "index")%string then
    Some ("DROP INDEX IF EXISTS " ++ Name s ++ ";" ++ LF)%string
  else if (Typ s =? "table")%string then
    if HasPrefix (Name s) "sqlite_" then None
    else Some ("DROP TABLE IF EXISTS " ++ Name s ++ ";" ++ LF)%string
  else None.

Fixpoint writeDropStatements (w : Writer) (schemas : list schema)
  : option error * Writer :=
  match schemas with
  | [] => (None, w)
  | s :: rest =>
      match dropStatement s with
      | None => writeDropStatements w rest
      | Some statement =>
          match Write w statement with
          | (Some err, w') => (Some (FailedToWrite statement err), w')
          | (None, w') => writeDropStatements w' rest
          end
      end
  end.

(** The suffix test of the table loop. *)
Definition hasFtsSuffix (name : string) : bool :=
  HasSuffix name "_segments" || HasSuffix name "_segdir"
  || HasSuffix name "_stat" || HasSuffix name "_idx"
  || HasSuffix name "_docsize" || HasSuffix name "_config"
  || HasSuffix name "_data" || HasSuffix name "_content".

Definition deleteSequence : string :=
  ("DELETE FROM " ++ DQ ++ "sqlite_sequence" ++ DQ ++ ";" ++ LF)%string.

Definition analyzeMaster : string :=
  ("ANALYZE " ++ DQ ++ "sqlite_master" ++ DQ ++ ";" ++ LF)%string.

(** [fmt.Sprintf] of the format [%s;\n]. *)
Definition terminated (sql : string) : string := (sql ++ ";" ++ LF)%string.

(** One turn of [for _, schema := range tableSchemas].  The results of
    [out.Write] are dropped, as in the source. *)
Definition writeTableSchema (s3d : sqlite3dumper) (out : Writer) (s : schema)
  : Writer :=
  if (Name s =? "sqlite_sequence")%string then
    snd (Write out deleteSequence)
  else if (Name s =? "sqlite3_stat1")%string then
    snd (Write out analyzeMaster)
  else if HasPrefix (Name s) "sqlite_" then
    out
  else if hasFtsSuffix (Name s) then
    out
  else if negb (migration s3d) then
    snd (Write out (terminated (SQL s)))
  else out.

(** One turn of [for _, schema := range otherSchemas]. *)
Definition writeOtherSchema (out : Writer) (s : schema) : Writer :=
  snd (Write out (terminated (SQL s))).

Definition dumpDB (s3d : sqlite3dumper) (db : DB) (out : Writer)
  : option error * Writer :=
  let out :=
    if wrapWithTransaction s3d
    then snd (Write out ("BEGIN TRANSACTION;" ++ LF)%string) else out in
  match getSchemas db TableSchemas with
  | (_, Some err) => (Some err, out)
  | (tableSchemas, None) =>
      match getSchemas db OtherSchemas with
      | (_, Some err) => (Some err, out)
      | (otherSchemas, None) =>
          let dropped :=
            if dropIfExists s3d
            then writeDropStatements out (otherSchemas ++ tableSchemas)
            else (None, out) in
          match dropped with
          | (Some err, out) => (Some err, out)
          | (None, out) =>
              let out := fold_left (writeTableSchema s3d) tableSchemas out in
              let out := fold_left writeOtherSchema otherSchemas out in
              let out :=
                if wrapWithTransaction s3d
                then snd (Write out ("COMMIT;" ++ LF)%string) else out in
              (None, out)
          end
      end
  end.

(** [DumpDB] dumps a raw [sql.DB]. *)
Definition DumpDB (db : DB) (out : Writer) (opts : list Option)
  : option error * Writer :=
  dumpDB (newSqlite3Dumper opts) db out.

(** [DumpMigration]; the option [WithMigration()] is declared outside
    [dump.go] and is taken as an argument. *)
Definition DumpMigration (WithMigration : Option) (db : DB) (out : Writer)
  : option error * Writer :=
  dumpDB (newSqlite3Dumper [WithMigration]) db out.

(** The part of the process environment [dump] reads: [os.Stat] (its
    error result only) and [sql.Open] for the sqlite3 driver. *)
Record World : Type := mkWorld {
  os_Stat : string -> option error;
  sql_Open : string -> error + DB
}.

(** [dump]: the named result [err] receives the result of [os.Stat] and
    is what the bare [return] hands back. *)
Definition dump (s3d : sqlite3dumper) (env : World) (dbName : string)
           (out : Writer) : option error * Writer :=
  let err := os_Stat env dbName in
  if os_IsNotExist err then (err, out)
  else
    match sql_Open env dbName with
    | inl err => (Some err, out)
    | inr db => dumpDB s3d db out
    end.

Definition Dump (env : World) (dbName : string) (out : Writer)
           (opts : list Option) : option error * Writer :=
  dump (newSqlite3Dumper opts) env dbName out.

(** ** The statement stream, phase by phase

    The loops above are characterised below by lists of statements built
    with [map], [filter] and [flat_map]; the theorems relate the two. *)

(** The five branches of the table loop. *)
Inductive tableClass : Type :=
| SequenceTable
| StatTable
| SystemTable
| FtsAuxiliary
| OrdinaryTable.

Definition classify (name : string) : tableClass :=
  if (name =? "sqlite_sequence")%string then SequenceTable
  else if (name =? "sqlite3_stat1")%string then StatTable
  else if HasPrefix name "sqlite_" then SystemTable
  else if hasFtsSuffix name then FtsAuxiliary
  else OrdinaryTable.

(** The two names replaced by a fixed statement. *)
Definition isSpecial (s : schema) : bool :=
  match classify (Name s) with
  | SequenceTable | StatTable => true
  | _ => false
  end.

Definition isOrdinary (s : schema) : bool :=
  match classify (Name s) with
  | OrdinaryTable => true
  | _ => false
  end.

(** Whether the table loop writes a statement for [s]. *)
Definition emitsStatement (s3d : sqlite3dumper) (s : schema) : bool :=
  isSpecial s || (isOrdinary s && negb (migration s3d)).

(** The statement the table loop writes for [s], when it writes one. *)
Definition tableLine (s : schema) : string :=
  match classify (Name s) with
  | SequenceTable => deleteSequence
  | StatTable => analyzeMaster
  | _ => terminated (SQL s)
  end.

Definition tableLines (s3d : sqlite3dumper) (tables : list schema)
  : list string :=
  map tableLine (filter (emitsStatement s3d) tables).

Definition otherLines (others : list schema) : list string :=
  map (fun s => terminated (SQL s)) others.

Definition dropLines (schemas : list schema) : list string :=
  flat_map (fun s => match dropStatement s with
                     | Some statement => [statement]
                     | None => []
                     end) schemas.

Definition dropIndexLine (s : schema) : string :=
  ("DROP INDEX IF EXISTS " ++ Name s ++ ";" ++ LF)%string.

Definition dropTableLine (s : schema) : string :=
  ("DROP TABLE IF EXISTS " ++ Name s ++ ";" ++ LF)%string.


Definition isSystem (s : schema) : bool := HasPrefix (Name s) "sqlite_".

Definition beginLines (s3d : sqlite3dumper) : list string :=
  if wrapWithTransaction s3d then [("BEGIN TRANSACTION;" ++ LF)%string] else [].

Definition commitLines (s3d : sqlite3dumper) : list string :=
  if wrapWithTransaction s3d then [("COMMIT;" ++ LF)%string] else [].

(** ** What the engine guarantees about the two answers *)

(** Both catalog queries ran without failure and returned these rows. *)
Definition answers (db : DB) (tables others : list schema) : Prop :=
  getSchemas db TableSchemas = (tables, None)
  /\ getSchemas db OtherSchemas = (others, None).



(** [ORDER BY name] over names that are unique in the catalog: byte-wise
    strictly ascending. *)
Definition nameLt (a b : schema) : Prop :=
  String.ltb (Name a) (Name b) = true.

(** ** Identifier quoting, as the claim on DROP statements words it

    Every embedded double quote doubled, then the whole wrapped in double
    quotes. *)
Definition quotedIdentifier (name : string) : string :=
  (DQ ++ doubleQuotes name ++ DQ)%string.

(** ** Sample catalogs and writers *)

Module Samples.

Definition users : schema :=
  mkSchema "users" "table" "CREATE TABLE users(id INTEGER PRIMARY KEY, name TEXT)".

Definition sequence : schema :=
  mkSchema "sqlite_sequence" "table" "CREATE TABLE sqlite_sequence(name,seq)".

Definition stat1 : schema :=
  mkSchema "sqlite3_stat1" "table" "CREATE TABLE sqlite3_stat1(tbl,idx,stat)".

Definition docs_data : schema :=
  mkSchema "docs_data" "table"
           "CREATE TABLE 'docs_data'(id INTEGER PRIMARY KEY, block BLOB)".

(** A table whose name needs quoting: [odd], a double quote, [name]. *)
Definition odd : schema :=
  mkSchema ("odd" ++ DQ ++ "name")%string "table"
           ("CREATE TABLE " ++ quotedIdentifier ("odd" ++ DQ ++ "name") ++ "(x)")%string.

Definition users_name : schema :=
  mkSchema "users_name" "index" "CREATE INDEX users_name ON users(name)".

Definition users_audit : schema :=
  mkSchema "users_audit" "trigger"
           "CREATE TRIGGER users_audit AFTER INSERT ON users BEGIN SELECT 1; END".

Definition active_users : schema :=
  mkSchema "active_users" "view" "CREATE VIEW active_users AS SELECT id FROM users".

(** Table rows in [ORDER BY name] order. *)
Definition tables : list schema := [docs_data; stat1; sequence; users].
Definition others : list schema := [users_name; users_audit; active_users].

Definition db : DB := healthyDB tables others.
Definition emptyDB : DB := healthyDB [] [].

(** A fresh buffer, and a stream all of whose writes fail. *)
Definition buffer : Writer := mkWriter [] [].
Definition closedPipe : Writer :=
  mkWriter [] (repeat (Some (ErrWrite "write: broken pipe")) 8).

(** A file system without [absent.db]; the driver opens anything. *)
Definition world : World :=
  mkWorld (fun path => if (path =? "absent.db")%string
                       then Some (ErrNotExist path) else None)
          (fun _ => inr db).

Definition withDrops : sqlite3dumper := mkDumper false true true.

End Samples.

(** ** Row statements: [pragmaTableInfo] and [writeInsStmtsForTableRows]

    These two methods send queries whose text they build themselves, and
    scan rows of another shape than [getSchemas] does.  The handle is
    therefore seen here through the text of the query and through the two
    ways the rows are scanned: six untyped cells for the column catalog,
    one string for the generated INSERT statements. *)

Definition TAB : string := String (ascii_of_nat 9) EmptyString.

(** [strings.Join]. *)
Definition Join (elems : list string) (sep : string) : string :=
  String.concat sep elems.

(** The dynamic type of a value scanned into an empty interface, as far
    as the type switch of [pragmaTableInfo] tells values apart. *)
Inductive cell : Type :=
| CString (s : string)
| CBytes (b : string)
| CInt64
| CFloat64
| CNil.

(** The slice [arr] of six cells filled by [rows.Scan(arr...)]. *)
Record infoRow : Type := mkInfoRow {
  arr0 : cell;
  arr1 : cell;
  arr2 : cell;
  arr3 : cell;
  arr4 : cell;
  arr5 : cell
}.

(** One [rows.Next(); rows.Scan(...)] step giving a value of type [A]. *)
Inductive fetch (A : Type) : Type :=
| Fetched (a : A)
| FetchFails (e : error).
Arguments Fetched {A} a.
Arguments FetchFails {A} e.

(** What [db.Prepare(q)] followed by [stmt.Query()] gives for rows
    scanned as values of type [A]. *)
Inductive reply (A : Type) : Type :=
| NotPrepared (e : error)
| NotRun (e : error)
| Cursor (steps : list (fetch A)) (rowsErr : option error).
Arguments NotPrepared {A} e.
Arguments NotRun {A} e.
Arguments Cursor {A} steps rowsErr.

Record RowDB : Type := mkRowDB {
  tableInfo : string -> reply infoRow;
  selectText : string -> reply string
}.

(** The raw string of [pragmaTableInfo] around the table name: a line
    feed, eight spaces, the PRAGMA, a line feed and two tabs. *)
Definition pragmaQuery (tableName : string) : string :=
  (LF ++ "        PRAGMA table_info(" ++ DQ ++ tableName ++ DQ ++ ")"
      ++ LF ++ TAB ++ TAB)%string.

(** The closure appended to [columnNames]: the switch on the dynamic
    type of [arr[1]]; [result] stays empty in the other cases. *)
Definition columnName (arr : infoRow) : string :=
  match arr1 arr with
  | CString s => s
  | CBytes b => b
  | _ => EmptyString
  end.

(** The loop of [pragmaTableInfo]. *)
Fixpoint scanColumns (steps : list (fetch infoRow)) (rowsErr : option error)
         (columnNames : list string) : list string * option error :=
  match steps with
  | [] => (columnNames, rowsErr)
  | Fetched arr :: rest => scanColumns rest rowsErr (columnNames ++ [columnName arr])
  | FetchFails e :: _ => (columnNames, Some e)
  end.

Definition pragmaTableInfo (db : RowDB) (tableName : string)
  : list string * option error :=
  match tableInfo db (pragmaQuery tableName) with
  | NotPrepared e => ([], Some e)
  | NotRun e => ([], Some e)
  | Cursor steps rowsErr => scanColumns steps rowsErr []
  end.

(** One entry of [columnSelects]. *)
Definition columnSelect (c : string) : string :=
  ("'||quote(" ++ DQ ++ doubleQuotes c ++ DQ ++ ")||'")%string.

(** The two formats of [writeInsStmtsForTableRows], filled in. *)
Definition insertQuery (tableName : string) (columnSelects : list string)
  : string :=
  (LF ++ TAB ++ TAB ++ "SELECT 'INSERT INTO " ++ DQ ++ tableName ++ DQ
      ++ " VALUES(" ++ Join columnSelects "," ++ ")' FROM "
      ++ DQ ++ tableName ++ DQ ++ ";" ++ LF ++ TAB)%string.

Definition insertQueryNamed (tableName : string)
           (columnNames columnSelects : list string) : string :=
  (LF ++ TAB ++ TAB ++ "SELECT 'INSERT INTO " ++ DQ ++ tableName ++ DQ
      ++ "(" ++ Join columnNames "," ++ ") VALUES("
      ++ Join columnSelects "," ++ ")' FROM "
      ++ DQ ++ tableName ++ DQ ++ ";" ++ LF ++ TAB)%string.

(** The row loop of [writeInsStmtsForTableRows]. *)
Fixpoint writeInserts (w : Writer) (steps : list (fetch string))
         (rowsErr : option error) : option error * Writer :=
  match steps with
  | [] => (rowsErr, w)
  | FetchFails e :: _ => (Some e, w)
  | Fetched insert :: rest =>
      match Write w (terminated insert) with
      | (Some err, w') => (Some err, w')
      | (None, w') => writeInserts w' rest rowsErr
      end
  end.

Definition writeInsStmtsForTableRows (s3d : sqlite3dumper) (w : Writer)
           (db : RowDB) (tableName : string) : option error * Writer :=
  match pragmaTableInfo db tableName with
  | (_, Some err) => (Some err, w)
  | (columnNames, None) =>
      let columnSelects := map columnSelect columnNames in
      let q :=
        if migration s3d
        then insertQueryNamed tableName columnNames columnSelects
        else insertQuery tableName columnSelects in
      match selectText db q with
      | NotPrepared e => (Some e, w)
      | NotRun e => (Some e, w)
      | Cursor steps rowsErr => writeInserts w steps rowsErr
      end
  end.

(** ** Unreliable writers

    What a sequence of [Write] calls whose results are dropped leaves in
    the stream: the slices whose call succeeded and, of the slices whose
    call failed, the bytes the stream accepted. *)
Fixpoint survivors (script : list (option error)) (cuts : list nat)
         (lines : list string) {struct lines} : list string :=
  match lines with
  | [] => []
  | line :: lines' =>
      match script with
      | [] => line :: lines'
      | None :: script' => line :: survivors script' cuts lines'
      | Some _ :: script' =>
          fragment (hd 0 cuts) line ++ survivors script' (tl cuts) lines'
      end
  end.

(** The part of [short] left after these calls. *)
Fixpoint unread (script : list (option error)) (cuts : list nat)
         (lines : list string) {struct lines} : list nat :=
  match lines with
  | [] => cuts
  | _ :: lines' =>
      match script with
      | [] => cuts
      | None :: script' => unread script' cuts lines'
      | Some _ :: script' => unread script' (tl cuts) lines'
      end
  end.

Definition writeAll (w : Writer) (lines : list string) : Writer :=
  mkStream (written w ++ survivors (faults w) (short w) lines)
           (skipn (List.length lines) (faults w))
           (unread (faults w) (short w) lines).

(** The rows a cursor yields before its first failing step, and the
    error the loop over it ends with. *)
Fixpoint scannedRows (cursor : list scan) : list schema :=
  match cursor with
  | Scanned s :: rest => s :: scannedRows rest
  | _ => []
  end.

Fixpoint scanOutcome (cursor : list scan) (rowsErr : option error)
  : option error :=
  match cursor with
  | [] => rowsErr
  | Scanned _ :: rest => scanOutcome rest rowsErr
  | ScanFails e :: _ => Some e
  end.

Fixpoint fetchedRows {A : Type} (steps : list (fetch A)) : list A :=
  match steps with
  | Fetched a :: rest => a :: fetchedRows rest
  | _ => []
  end.

Fixpoint fetchOutcome {A : Type} (steps : list (fetch A))
         (rowsErr : option error) : option error :=
  match steps with
  | [] => rowsErr
  | Fetched _ :: rest => fetchOutcome rest rowsErr
  | FetchFails e :: _ => Some e
  end.

(** The defaults of [newSqlite3Dumper]. *)
Definition defaultDumper : sqlite3dumper := mkDumper false false true.

(** More samples: a handle for the row queries of the table [users]. *)
Module RowSamples.

Definition idColumn : infoRow :=
  mkInfoRow CInt64 (CString "id") (CString "INTEGER") CInt64 CNil CInt64.

Definition nameColumn : infoRow :=
  mkInfoRow CInt64 (CBytes "name") (CString "TEXT") CInt64 CNil CInt64.

Definition inserts : list string :=
  ["INSERT INTO " ++ DQ ++ "users" ++ DQ ++ " VALUES(1,'a')";
   "INSERT INTO " ++ DQ ++ "users" ++ DQ ++ " VALUES(2,'b')";
   "INSERT INTO " ++ DQ ++ "users" ++ DQ ++ " VALUES(3,'c')"]%string.

Definition db : RowDB :=
  mkRowDB
    (fun q => if (q =? pragmaQuery "users")%string
              then Cursor [Fetched idColumn; Fetched nameColumn] None
              else NotPrepared (ErrDriver "no such table"))
    (fun q => Cursor (map Fetched inserts) None).

(** The third write fails. *)
Definition fullDisk : Writer :=
  mkWriter [] [None; None; Some (ErrWrite "no space left on device"); None].

(** The third write fails after the stream took eleven bytes of it. *)
Definition tornDisk : Writer :=
  mkStream [] [None; None; Some (ErrWrite "no space left on device"); None] [11].

(** A catalog whose table cursor breaks after two rows. *)
Definition brokenDB : DB :=
  fun q =>
    match q with
    | TableSchemas =>
        Rows [Scanned Samples.docs_data; Scanned Samples.users;
              ScanFails (ErrDriver "database disk image is malformed");
              Scanned Samples.sequence] None
    | OtherSchemas => Rows (map Scanned Samples.others) None
    end.

(** A file system on which [os.Stat] is refused on [locked.db]. *)
Definition lockedWorld : World :=
  mkWorld (fun path => Some (ErrStat path "permission denied"))
          (fun _ => inr Samples.db).

End RowSamples.

(** ** The engine's side of the two catalog queries

    The table [sqlite_master] and what the two SELECT statements of
    [dumpDB] ask of it. *)










(** A catalog in the order its objects were created. *)
Module EngineSamples.


(** A table whose name carries a statement of its own. *)
Definition injected : schema :=
  mkSchema ("x;" ++ LF ++ "DELETE FROM " ++ DQ ++ "sqlite_sequence" ++ DQ)%string
           "table"
           ("CREATE TABLE "
              ++ quotedIdentifier ("x;" ++ LF ++ "DELETE FROM " ++ DQ
                                        ++ "sqlite_sequence" ++ DQ)
              ++ "(a)")%string.

End EngineSamples.

(** * Facts *)

(** ** Writers *)

Section WriterFacts.

Lemma Write_reliable (w : Writer) (p : string) :
  reliable w ->
  Write w p = (None, snd (Write w p))
  /\ written (snd (Write w p)) = written w ++ [p]
  /\ reliable (snd (Write w p)).
Proof.
  unfold reliable, Write.
  destruct (faults w) as [|[e|] rest]; intros Hrel; cbn.
  - repeat split; constructor.
  - apply Forall_inv in Hrel; discriminate.
  - apply Forall_inv_tail in Hrel; repeat split; assumption.
Qed.

Lemma Write_failing (w : Writer) (p : string) (e : error) (rest : list (option error)) :
  faults w = Some e :: rest ->
  Write w p
  = (Some e,
     mkStream (written w ++ fragment (hd 0 (short w)) p) rest (tl (short w))).
Proof. unfold Write; intros ->; reflexivity. Qed.

Lemma reliable_buffer (lines : list string) : reliable (mkWriter lines []).
Proof. constructor. Qed.

End WriterFacts.

(** ** Reading the catalog *)

Section CatalogFacts.

Lemma scanRows_Scanned (rows acc : list schema) (rowsErr : option error) :
  scanRows (map Scanned rows) rowsErr acc = (acc ++ rows, rowsErr).
Proof.
  revert acc; induction rows as [|s rows IH]; intros acc; cbn.
  - now rewrite app_nil_r.
  - rewrite IH, <- app_assoc; reflexivity.
Qed.

Lemma healthyDB_answers (tables others : list schema) :
  answers (healthyDB tables others) tables others.
Proof.
  split; unfold getSchemas, healthyDB; apply scanRows_Scanned.
Qed.

(** A failure before the cursor exists leaves the slice nil. *)
Lemma getSchemas_PrepareFails (db : DB) (q : query) (e : error) :
  db q = PrepareFails e -> getSchemas db q = ([], Some e).
Proof. unfold getSchemas; intros ->; reflexivity. Qed.

Lemma getSchemas_QueryFails (db : DB) (q : query) (e : error) :
  db q = QueryFails e -> getSchemas db q = ([], Some e).
Proof. unfold getSchemas; intros ->; reflexivity. Qed.

End CatalogFacts.

(** ** The three loops on a reliable writer *)

Section Loops.

Variable s3d : sqlite3dumper.

Lemma writeTableSchema_reliable (w : Writer) (s : schema) :
  reliable w ->
  written (writeTableSchema s3d w s)
  = written w ++ (if emitsStatement s3d s then [tableLine s] else [])
  /\ reliable (writeTableSchema s3d w s).
Proof.
  intros Hrel.
  unfold writeTableSchema, emitsStatement, isSpecial, isOrdinary, tableLine, classify.
  destruct (Name s =? "sqlite_sequence")%string; cbn [orb andb].
  { now destruct (Write_reliable w deleteSequence Hrel) as (_ & ? & ?). }
  destruct (Name s =? "sqlite3_stat1")%string; cbn [orb andb].
  { now destruct (Write_reliable w analyzeMaster Hrel) as (_ & ? & ?). }
  destruct (HasPrefix (Name s) "sqlite_"); cbn [orb andb].
  { now rewrite app_nil_r. }
  destruct (hasFtsSuffix (Name s)); cbn [orb andb].
  { now rewrite app_nil_r. }
  destruct (migration s3d); cbn [negb].
  { now rewrite app_nil_r. }
  now destruct (Write_reliable w (terminated (SQL s)) Hrel) as (_ & ? & ?).
Qed.

Lemma tableLoop_reliable (tables : list schema) (w : Writer) :
  reliable w ->
  written (fold_left (writeTableSchema s3d) tables w)
  = written w ++ tableLines s3d tables
  /\ reliable (fold_left (writeTableSchema s3d) tables w).
Proof.
  revert w; induction tables as [|s tables IH]; intros w Hrel; cbn [fold_left].
  - unfold tableLines; cbn; now rewrite app_nil_r.
  - destruct (writeTableSchema_reliable w s Hrel) as [Hw Hrel'].
    destruct (IH _ Hrel') as [Hout Hfin]; split; [|exact Hfin].
    rewrite Hout, Hw, <- app_assoc; f_equal.
    unfold tableLines; cbn [filter].
    now destruct (emitsStatement s3d s).
Qed.

Lemma otherLoop_reliable (others : list schema) (w : Writer) :
  reliable w ->
  written (fold_left writeOtherSchema others w) = written w ++ otherLines others
  /\ reliable (fold_left writeOtherSchema others w).
Proof.
  revert w; induction others as [|s others IH]; intros w Hrel; cbn [fold_left].
  - cbn; now rewrite app_nil_r.
  - unfold writeOtherSchema at 2 4.
    destruct (Write_reliable w (terminated (SQL s)) Hrel) as (_ & Hw & Hrel').
    destruct (IH _ Hrel') as [Hout Hfin]; split; [|exact Hfin].
    rewrite Hout, Hw, <- app_assoc; reflexivity.
Qed.

Lemma writeDropStatements_reliable (schemas : list schema) (w : Writer) :
  reliable w ->
  exists w',
    writeDropStatements w schemas = (None, w')
    /\ written w' = written w ++ dropLines schemas
    /\ reliable w'.
Proof.
  revert w; induction schemas as [|s schemas IH]; intros w Hrel; cbn.
  - exists w; now rewrite app_nil_r.
  - destruct (dropStatement s) as [statement|].
    + destruct (Write_reliable w statement Hrel) as (Hcall & Hw & Hrel').
      rewrite Hcall.
      destruct (IH _ Hrel') as (w' & Hrun & Hout & Hfin).
      exists w'; repeat split; try assumption.
      rewrite Hout, Hw, <- app_assoc; reflexivity.
    + apply IH, Hrel.
Qed.

End Loops.

(** ** The whole dump on a reliable writer *)

Lemma dumpDB_reliable (s3d : sqlite3dumper) (db : DB) (w : Writer)
      (tables others : list schema) :
  reliable w ->
  answers db tables others ->
  exists w',
    dumpDB s3d db w = (None, w')
    /\ reliable w'
    /\ written w'
       = written w ++ beginLines s3d
         ++ (if dropIfExists s3d then dropLines (others ++ tables) else [])
         ++ tableLines s3d tables ++ otherLines others ++ commitLines s3d.
Proof.
  intros Hrel [Htables Hothers].
  unfold dumpDB; rewrite Htables, Hothers.
  set (w1 := if wrapWithTransaction s3d
             then snd (Write w ("BEGIN TRANSACTION;" ++ LF)%string) else w).
  assert (H1 : written w1 = written w ++ beginLines s3d /\ reliable w1).
  { unfold w1, beginLines; destruct (wrapWithTransaction s3d).
    - now destruct (Write_reliable w ("BEGIN TRANSACTION;" ++ LF)%string Hrel) as (_ & ? & ?).
    - now rewrite app_nil_r. }
  destruct H1 as [Hw1 Hrel1].
  assert (H2 : exists w2,
             (if dropIfExists s3d
              then writeDropStatements w1 (others ++ tables) else (None, w1))
             = (None, w2)
             /\ written w2
                = written w1
                  ++ (if dropIfExists s3d then dropLines (others ++ tables) else [])
             /\ reliable w2).
  { destruct (dropIfExists s3d).
    - now apply writeDropStatements_reliable.
    - exists w1; now rewrite app_nil_r. }
  destruct H2 as (w2 & Hdrop & Hw2 & Hrel2).
  rewrite Hdrop.
  destruct (tableLoop_reliable s3d tables w2 Hrel2) as [Hw3 Hrel3].
  destruct (otherLoop_reliable others _ Hrel3) as [Hw4 Hrel4].
  set (w4 := fold_left writeOtherSchema others
                       (fold_left (writeTableSchema s3d) tables w2)) in *.
  eexists; split; [reflexivity|].
  unfold commitLines; destruct (wrapWithTransaction s3d).
  - destruct (Write_reliable w4 ("COMMIT;" ++ LF)%string Hrel4) as (_ & Hw5 & Hrel5).
    split; [exact Hrel5|].
    rewrite Hw5, Hw4, Hw3, Hw2, Hw1, <- !app_assoc; reflexivity.
  - split; [exact Hrel4|].
    rewrite Hw4, Hw3, Hw2, Hw1, <- !app_assoc, app_nil_r; reflexivity.
Qed.

(** ** Entry points *)

(** C9: the deprecated [DumpMigration db out] gives the same error and the
    same output as [DumpDB db out (WithMigration())], whatever the option
    [WithMigration()] does: both build the dumper from the defaults
    (no migration, no drops, transaction wrapping) with that single option
    applied, and run [dumpDB] with it. *)
Theorem DumpMigration_calls_DumpDB :
  forall (WithMigration : Option) (db : DB) (out : Writer),
    DumpMigration WithMigration db out = DumpDB db out [WithMigration]
    /\ DumpDB db out [WithMigration]
       = dumpDB (WithMigration (mkDumper false false true)) db out.
Proof. intros; split; reflexivity. Qed.

(** C1, as amended: when [os.Stat] reports that the source does not exist,
    [Dump] hands that very error back to the caller, for every writer and
    every list of options, and the writer is left untouched: nothing is
    written and no [Write] is attempted. *)
Theorem Dump_absent_source :
  forall (env : World) (dbName : string) (out : Writer) (opts : list Option),
    os_IsNotExist (os_Stat env dbName) = true ->
    Dump env dbName out opts = (os_Stat env dbName, out)
    /\ os_Stat env dbName <> None.
Proof.
  intros env dbName out opts Habsent.
  unfold Dump, dump; rewrite Habsent; split; [reflexivity|].
  destruct (os_Stat env dbName); [discriminate | discriminate Habsent].
Qed.

Lemma Dump_absent_source_witness :
  os_IsNotExist (os_Stat Samples.world "absent.db") = true
  /\ Dump Samples.world "absent.db" Samples.buffer []
     = (os_Stat Samples.world "absent.db", Samples.buffer)
  /\ os_Stat Samples.world "absent.db" <> None.
Proof.
  split; [reflexivity|].
  apply (Dump_absent_source Samples.world "absent.db" Samples.buffer []).
  reflexivity.
Defined.

(** C1, as first stated, fails: for the absent source [absent.db], [Dump]
    does not both return no error and leave the output empty, because it
    returns the not-exist error. *)
Lemma Dump_absent_source_returns_error :
  os_IsNotExist (os_Stat Samples.world "absent.db") = true
  /\ ~ (fst (Dump Samples.world "absent.db" Samples.buffer []) = None
        /\ written (snd (Dump Samples.world "absent.db" Samples.buffer [])) = []).
Proof.
  split; [reflexivity|].
  intros [Hnil _]; vm_compute in Hnil; discriminate Hnil.
Qed.

(** When the source exists, [dump] is [dumpDB] on the opened handle. *)
Lemma dump_present_source (s3d : sqlite3dumper) (env : World)
      (dbName : string) (db : DB) (out : Writer) :
  os_IsNotExist (os_Stat env dbName) = false ->
  sql_Open env dbName = inr db ->
  dump s3d env dbName out = dumpDB s3d db out.
Proof. unfold dump; intros -> ->; reflexivity. Qed.

(** ** Failures *)

(** A failing catalog query is returned at once. *)
Lemma dumpDB_table_query_fails (s3d : sqlite3dumper) (db : DB) (w : Writer)
      (partial : list schema) (e : error) :
  getSchemas db TableSchemas = (partial, Some e) ->
  fst (dumpDB s3d db w) = Some e.
Proof. intros Hq; unfold dumpDB; rewrite Hq; reflexivity. Qed.

Lemma dumpDB_other_query_fails (s3d : sqlite3dumper) (db : DB) (w : Writer)
      (tables partial : list schema) (e : error) :
  getSchemas db TableSchemas = (tables, None) ->
  getSchemas db OtherSchemas = (partial, Some e) ->
  fst (dumpDB s3d db w) = Some e.
Proof. intros Ht Ho; unfold dumpDB; rewrite Ht, Ho; reflexivity. Qed.

(** In the drop phase a failing write stops the dump and is reported,
    wrapped together with the statement. *)
Lemma writeDropStatements_reports (w : Writer) (schemas : list schema) (e : error) :
  fst (writeDropStatements w schemas) = Some e ->
  exists statement cause, e = FailedToWrite statement cause.
Proof.
  revert w; induction schemas as [|s schemas IH]; intros w; cbn.
  - discriminate.
  - destruct (dropStatement s) as [statement|]; [|apply IH].
    destruct (Write w statement) as [[cause|] w'].
    + cbn; intros [= <-]; now exists statement, cause.
    + apply IH.
Qed.

(** Outside the drop phase no result of [Write] is looked at: with drops
    disabled, a dump whose catalog queries succeed returns nil on every
    writer. *)
Lemma dumpDB_without_drops_returns_nil (s3d : sqlite3dumper) (db : DB)
      (w : Writer) (tables others : list schema) :
  dropIfExists s3d = false ->
  answers db tables others ->
  fst (dumpDB s3d db w) = None.
Proof.
  intros Hdrop [Ht Ho]; unfold dumpDB; rewrite Ht, Ho, Hdrop; reflexivity.
Qed.

(** C2 at a failing input: the default dumper on a catalog of four tables
    and three other objects, writing to a closed pipe.  All eight writes
    (the envelope, three table statements, three other-schema statements)
    fail, nothing reaches the stream, and [dumpDB] still returns nil. *)
Theorem dumpDB_discards_write_errors :
  dumpDB (newSqlite3Dumper []) Samples.db Samples.closedPipe
  = (None, mkWriter [] []).
Proof. vm_compute; reflexivity. Qed.

(** C3 at a failing input: for the table named [odd], double quote,
    [name], the drop phase writes the name as it is, neither doubling the
    quote nor wrapping the name. *)
Theorem writeDropStatements_leaves_names_unquoted :
  writeDropStatements Samples.buffer [Samples.odd]
  = (None,
     mkWriter [("DROP TABLE IF EXISTS odd" ++ DQ ++ "name;" ++ LF)%string] [])
  /\ dropStatement Samples.odd
     <> Some ("DROP TABLE IF EXISTS " ++ quotedIdentifier (Name Samples.odd)
              ++ ";" ++ LF)%string.
Proof.
  split; [vm_compute; reflexivity|].
  vm_compute; discriminate.
Qed.

(** ** The phases as lists *)

Section Phases.

Lemma tableLines_app (s3d : sqlite3dumper) (l1 l2 : list schema) :
  tableLines s3d (l1 ++ l2) = tableLines s3d l1 ++ tableLines s3d l2.
Proof. unfold tableLines; now rewrite filter_app, map_app. Qed.

Lemma tableLines_cons (s3d : sqlite3dumper) (s : schema) (l : list schema) :
  tableLines s3d (s :: l)
  = (if emitsStatement s3d s then [tableLine s] else []) ++ tableLines s3d l.
Proof. unfold tableLines; cbn [filter]; now destruct (emitsStatement s3d s). Qed.

Lemma dropLines_app (l1 l2 : list schema) :
  dropLines (l1 ++ l2) = dropLines l1 ++ dropLines l2.
Proof. apply flat_map_app. Qed.





End Phases.

(** ** Byte-wise order of names *)

Section NameOrder.

Lemma ltb_compare (a b : string) : String.ltb a b = true <-> String.compare a b = Lt.
Proof. unfold String.ltb; destruct (String.compare a b); intuition discriminate. Qed.

Lemma nameLt_trans (a b c : schema) : nameLt a b -> nameLt b c -> nameLt a c.
Proof.
  unfold nameLt; rewrite !ltb_compare.
  change String.compare with String_as_OT.cmp.
  rewrite !String_as_OT.cmp_lt; apply String_as_OT.lt_trans.
Qed.


Lemma leb_compare (a b : string) :
  String.leb a b = true <-> String.compare a b <> Gt.
Proof.
  unfold String.leb; destruct (String.compare a b); split;
    congruence || discriminate.
Qed.











End NameOrder.

(** ** Claims on the contents of a dump *)

(** C8: on a database whose two catalog queries return no row, the
    default dumper appends exactly the two envelope statements, so that a
    fresh stream holds [BEGIN TRANSACTION;\nCOMMIT;\n]; a dumper with
    transaction wrapping disabled leaves the writer as it was. *)
Theorem dumpDB_empty_catalog :
  forall (db : DB) (w : Writer),
    reliable w ->
    answers db [] [] ->
    (exists w',
        dumpDB (newSqlite3Dumper []) db w = (None, w')
        /\ written w'
           = written w ++ [("BEGIN TRANSACTION;" ++ LF)%string; ("COMMIT;" ++ LF)%string]
        /\ (written w = [] ->
            output w' = ("BEGIN TRANSACTION;" ++ LF ++ "COMMIT;" ++ LF)%string))
    /\ (forall s3d, wrapWithTransaction s3d = false -> dumpDB s3d db w = (None, w)).
Proof.
  intros db w Hrel Hans; split.
  - destruct (dumpDB_reliable (newSqlite3Dumper []) db w [] [] Hrel Hans)
      as (w' & Hrun & _ & Hout).
    exists w'; split; [exact Hrun|].
    cbn in Hout; split; [exact Hout|].
    intros Hfresh; unfold output; rewrite Hout, Hfresh; reflexivity.
  - intros s3d Hwrap; destruct Hans as [Ht Ho].
    unfold dumpDB; rewrite Ht, Ho, Hwrap.
    destruct (dropIfExists s3d); reflexivity.
Qed.

Lemma dumpDB_empty_catalog_witness :
  reliable Samples.buffer
  /\ answers Samples.emptyDB [] []
  /\ (exists w',
         dumpDB (newSqlite3Dumper []) Samples.emptyDB Samples.buffer = (None, w')
         /\ written w'
            = written Samples.buffer
              ++ [("BEGIN TRANSACTION;" ++ LF)%string; ("COMMIT;" ++ LF)%string]
         /\ (written Samples.buffer = [] ->
             output w' = ("BEGIN TRANSACTION;" ++ LF ++ "COMMIT;" ++ LF)%string))
  /\ (forall s3d, wrapWithTransaction s3d = false ->
                  dumpDB s3d Samples.emptyDB Samples.buffer = (None, Samples.buffer)).
Proof.
  split; [constructor|].
  split; [split; reflexivity|].
  apply (dumpDB_empty_catalog Samples.emptyDB Samples.buffer).
  - constructor.
  - split; reflexivity.
Defined.







(** ** Special names *)

Section SpecialNames.

(** Neither special name carries a full-text-search suffix, so a name
    with such a suffix reaches the third or the fourth branch. *)
Lemma classify_fts (name : string) :
  hasFtsSuffix name = true ->
  classify name = SystemTable \/ classify name = FtsAuxiliary.
Proof.
  intros Hfts; unfold classify.
  destruct (String.eqb_spec name "sqlite_sequence") as [->|_].
  { vm_compute in Hfts; discriminate Hfts. }
  destruct (String.eqb_spec name "sqlite3_stat1") as [->|_].
  { vm_compute in Hfts; discriminate Hfts. }
  rewrite Hfts; destruct (HasPrefix name "sqlite_"); auto.
Qed.

Lemma emitsStatement_fts (s3d : sqlite3dumper) (s : schema) :
  hasFtsSuffix (Name s) = true -> emitsStatement s3d s = false.
Proof.
  intros Hfts; unfold emitsStatement, isSpecial, isOrdinary.
  destruct (classify_fts _ Hfts) as [-> | ->]; reflexivity.
Qed.

Lemma dropStatement_table (s : schema) :
  Typ s = "table" ->
  dropStatement s = if isSystem s then None else Some (dropTableLine s).
Proof. unfold dropStatement, isSystem; intros ->; reflexivity. Qed.

End SpecialNames.

(** ** Full-text-search auxiliary tables and [sqlite_sequence] *)

(** C4, as amended: a table row whose name ends with one of the eight
    full-text-search suffixes writes nothing in the table phase, in every
    configuration: the table phase is that of the catalog without the row.
    With drop-if-exists enabled the drop phase does write
    [DROP TABLE IF EXISTS <name>;] for it, at its place among the table
    rows, unless its name also starts with the reserved prefix. *)
Theorem fts_auxiliary_table_statements :
  forall (s3d : sqlite3dumper) (db : DB) (w : Writer)
         (pre : list schema) (s : schema) (post others : list schema),
    reliable w ->
    answers db (pre ++ s :: post) others ->
    Typ s = "table" ->
    hasFtsSuffix (Name s) = true ->
    exists w',
      dumpDB s3d db w = (None, w')
      /\ written w'
         = written w ++ beginLines s3d
           ++ (if dropIfExists s3d
               then dropLines (others ++ pre)
                    ++ (if isSystem s then [] else [dropTableLine s])
                    ++ dropLines post
               else [])
           ++ tableLines s3d (pre ++ post) ++ otherLines others ++ commitLines s3d.
Proof.
  intros s3d db w pre s post others Hrel Hans Htype Hfts.
  destruct (dumpDB_reliable s3d db w _ others Hrel Hans) as (w' & Hrun & _ & Hout).
  exists w'; split; [exact Hrun|].
  rewrite Hout; do 2 f_equal.
  rewrite !tableLines_app, tableLines_cons, (emitsStatement_fts s3d s Hfts).
  cbn [app]; f_equal.
  destruct (dropIfExists s3d); [|reflexivity].
  rewrite (app_assoc others pre), (dropLines_app (others ++ pre)).
  f_equal.
  change (s :: post) with ([s] ++ post); rewrite dropLines_app; f_equal.
  cbn; rewrite (dropStatement_table s Htype), app_nil_r.
  now destruct (isSystem s).
Qed.

Lemma fts_auxiliary_table_statements_witness :
  reliable Samples.buffer
  /\ answers Samples.db ([] ++ Samples.docs_data :: [Samples.stat1; Samples.sequence; Samples.users])
             Samples.others
  /\ Typ Samples.docs_data = "table"
  /\ hasFtsSuffix (Name Samples.docs_data) = true
  /\ exists w',
      dumpDB Samples.withDrops Samples.db Samples.buffer = (None, w')
      /\ written w'
         = [("BEGIN TRANSACTION;" ++ LF)%string;
            dropIndexLine Samples.users_name;
            dropTableLine Samples.docs_data;
            dropTableLine Samples.stat1;
            dropTableLine Samples.users;
            analyzeMaster;
            deleteSequence;
            terminated (SQL Samples.users);
            terminated (SQL Samples.users_name);
            terminated (SQL Samples.users_audit);
            terminated (SQL Samples.active_users);
            ("COMMIT;" ++ LF)%string].
Proof.
  split; [constructor|].
  split; [split; reflexivity|].
  split; [reflexivity|].
  split; [reflexivity|].
  apply (fts_auxiliary_table_statements
           Samples.withDrops Samples.db Samples.buffer
           [] Samples.docs_data [Samples.stat1; Samples.sequence; Samples.users]
           Samples.others).
  - constructor.
  - split; reflexivity.
  - reflexivity.
  - reflexivity.
Defined.

(** C4, as first stated, fails: with drop-if-exists enabled, the dump of a
    catalog whose only row is the table [docs_data] is not the bare
    envelope; it holds a DROP statement for that table. *)
Lemma fts_auxiliary_table_is_dropped :
  hasFtsSuffix (Name Samples.docs_data) = true
  /\ written (snd (dumpDB Samples.withDrops (healthyDB [Samples.docs_data] [])
                          Samples.buffer))
     = [("BEGIN TRANSACTION;" ++ LF)%string;
        ("DROP TABLE IF EXISTS docs_data;" ++ LF)%string;
        ("COMMIT;" ++ LF)%string]
  /\ written (snd (dumpDB Samples.withDrops (healthyDB [Samples.docs_data] [])
                          Samples.buffer))
     <> [("BEGIN TRANSACTION;" ++ LF)%string; ("COMMIT;" ++ LF)%string].
Proof.
  split; [reflexivity|].
  split; [reflexivity|].
  vm_compute; discriminate.
Qed.

(** C6 at a failing input: a catalog with the table [sqlite_sequence]
    and a table whose name is [x;], a line feed and
    [DELETE FROM "sqlite_sequence"], dumped with drop-if-exists enabled.
    The drop phase writes the second name as it is, so the stream holds
    the statement [DELETE FROM "sqlite_sequence";] twice: once inside the
    DROP line of the other table and once for [sqlite_sequence] itself. *)
Theorem sqlite_sequence_delete_written_twice :
  output (snd (dumpDB Samples.withDrops
                      (healthyDB [Samples.sequence; EngineSamples.injected] [])
                      Samples.buffer))
  = ("BEGIN TRANSACTION;" ++ LF
     ++ "DROP TABLE IF EXISTS x;" ++ LF
     ++ "DELETE FROM " ++ DQ ++ "sqlite_sequence" ++ DQ ++ ";" ++ LF
     ++ "DELETE FROM " ++ DQ ++ "sqlite_sequence" ++ DQ ++ ";" ++ LF
     ++ "CREATE TABLE " ++ DQ ++ "x;" ++ LF
     ++ "DELETE FROM " ++ DQ ++ DQ ++ "sqlite_sequence" ++ DQ ++ DQ ++ DQ
     ++ "(a);" ++ LF
     ++ "COMMIT;" ++ LF)%string.
Proof. vm_compute; reflexivity. Qed.

(** * Further facts on the same code *)

(** ** Writes whose result is dropped *)

Section DroppedResults.

Lemma Write_writeAll (w : Writer) (p : string) :
  snd (Write w p) = writeAll w [p].
Proof.
  unfold Write, writeAll.
  destruct (faults w) as [|[e|] rest]; cbn; try reflexivity.
  now rewrite app_nil_r.
Qed.

Lemma survivors_nil (cuts : list nat) (lines : list string) :
  survivors [] cuts lines = lines.
Proof. destruct lines; reflexivity. Qed.

Lemma unread_nil (cuts : list nat) (lines : list string) :
  unread [] cuts lines = cuts.
Proof. destruct lines; reflexivity. Qed.

Lemma survivors_app (script : list (option error)) (cuts : list nat)
      (a b : list string) :
  survivors script cuts (a ++ b)
  = survivors script cuts a
    ++ survivors (skipn (List.length a) script) (unread script cuts a) b.
Proof.
  revert script cuts; induction a as [|line a IH]; intros script cuts; cbn.
  - reflexivity.
  - destruct script as [|[e|] script]; cbn.
    + now rewrite survivors_nil.
    + now rewrite IH, app_assoc.
    + now rewrite IH.
Qed.

Lemma unread_app (script : list (option error)) (cuts : list nat)
      (a b : list string) :
  unread script cuts (a ++ b)
  = unread (skipn (List.length a) script) (unread script cuts a) b.
Proof.
  revert script cuts; induction a as [|line a IH]; intros script cuts; cbn.
  - reflexivity.
  - destruct script as [|[e|] script]; cbn.
    + now rewrite unread_nil.
    + apply IH.
    + apply IH.
Qed.

Lemma writeAll_nil (w : Writer) : writeAll w [] = w.
Proof. destruct w; unfold writeAll; cbn; now rewrite app_nil_r. Qed.

Lemma writeAll_app (w : Writer) (a b : list string) :
  writeAll (writeAll w a) b = writeAll w (a ++ b).
Proof.
  unfold writeAll; cbn [written faults short].
  rewrite survivors_app, unread_app, <- app_assoc, skipn_skipn, length_app.
  now rewrite (Nat.add_comm (List.length b)).
Qed.

Lemma tableLoop_writeAll (s3d : sqlite3dumper) (tables : list schema) (w : Writer) :
  fold_left (writeTableSchema s3d) tables w = writeAll w (tableLines s3d tables).
Proof.
  revert w; induction tables as [|s tables IH]; intros w; cbn [fold_left].
  - symmetry; apply writeAll_nil.
  - rewrite IH, tableLines_cons, <- writeAll_app; f_equal.
    unfold writeTableSchema, emitsStatement, isSpecial, isOrdinary, tableLine, classify.
    destruct (Name s =? "sqlite_sequence")%string; cbn [orb andb].
    { apply Write_writeAll. }
    destruct (Name s =? "sqlite3_stat1")%string; cbn [orb andb].
    { apply Write_writeAll. }
    destruct (HasPrefix (Name s) "sqlite_"); cbn [orb andb].
    { symmetry; apply writeAll_nil. }
    destruct (hasFtsSuffix (Name s)); cbn [orb andb].
    { symmetry; apply writeAll_nil. }
    destruct (migration s3d); cbn [negb].
    { symmetry; apply writeAll_nil. }
    apply Write_writeAll.
Qed.

Lemma otherLoop_writeAll (others : list schema) (w : Writer) :
  fold_left writeOtherSchema others w = writeAll w (otherLines others).
Proof.
  revert w; induction others as [|s others IH]; intros w; cbn [fold_left].
  - symmetry; apply writeAll_nil.
  - rewrite IH; unfold writeOtherSchema at 1.
    rewrite Write_writeAll, writeAll_app; reflexivity.
Qed.

Lemma envelope_writeAll (wrap : bool) (w : Writer) (line : string) :
  (if wrap then snd (Write w line) else w)
  = writeAll w (if wrap then [line] else []).
Proof.
  destruct wrap; [apply Write_writeAll | symmetry; apply writeAll_nil].
Qed.

End DroppedResults.

(** ** The drop phase on a writer that fails *)

Section DropFailures.

(** The first [k] writes succeed and the next one fails with [e], after
    the stream took the first [hd 0 (short w)] bytes of the statement. *)
Lemma writeDropStatements_stops (schemas : list schema) :
  forall (w : Writer) (k : nat) (e : error) (rest : list (option error)),
    faults w = repeat None k ++ Some e :: rest ->
    k < List.length (dropLines schemas) ->
    writeDropStatements w schemas
    = (Some (FailedToWrite (nth k (dropLines schemas) EmptyString) e),
       mkStream (written w ++ firstn k (dropLines schemas)
                 ++ fragment (hd 0 (short w))
                             (nth k (dropLines schemas) EmptyString))
                rest (tl (short w))).
Proof.
  induction schemas as [|s schemas IH]; intros w k e rest Hscript Hk.
  - cbn in Hk; inversion Hk.
  - cbn [writeDropStatements dropLines flat_map] in *.
    fold (dropLines schemas) in *.
    destruct (dropStatement s) as [statement|].
    + destruct k as [|k]; cbn [repeat app] in Hscript.
      * unfold Write; rewrite Hscript; reflexivity.
      * unfold Write; rewrite Hscript.
        cbn [app List.length] in Hk.
        rewrite (IH (mkStream (written w ++ [statement])
                              (repeat None k ++ Some e :: rest) (short w))
                    k e rest eq_refl (proj2 (Nat.succ_lt_mono _ _) Hk)).
        cbn; now rewrite <- app_assoc.
    + apply IH; assumption.
Qed.

Lemma writeDropStatements_error_source (schemas : list schema) :
  forall (w w' : Writer) (e : error),
    writeDropStatements w schemas = (Some e, w') ->
    exists statement cause,
      e = FailedToWrite statement cause
      /\ In statement (dropLines schemas)
      /\ In (Some cause) (faults w).
Proof.
  induction schemas as [|s schemas IH]; intros w w' e; cbn.
  - discriminate.
  - fold (dropLines schemas).
    destruct (dropStatement s) as [statement|]; [|apply IH].
    unfold Write; destruct (faults w) as [|[cause|] script] eqn:Hscript.
    + intros Hrun; apply IH in Hrun.
      destruct Hrun as (st & c & -> & Hst & []).
    + intros [= <- _]; exists statement, cause; cbn; auto.
    + intros Hrun; apply IH in Hrun.
      destruct Hrun as (st & c & -> & Hst & Hc).
      exists st, c; cbn in *; auto.
Qed.

End DropFailures.

(** ** Catalog cursors *)

Section Cursors.

Lemma scanRows_outcome (cursor : list scan) (rowsErr : option error)
      (acc : list schema) :
  scanRows cursor rowsErr acc
  = (acc ++ scannedRows cursor, scanOutcome cursor rowsErr).
Proof.
  revert acc; induction cursor as [|[s|e] cursor IH]; intros acc; cbn.
  - now rewrite app_nil_r.
  - rewrite IH, <- app_assoc; reflexivity.
  - now rewrite app_nil_r.
Qed.

Lemma scanColumns_outcome (steps : list (fetch infoRow)) (rowsErr : option error)
      (acc : list string) :
  scanColumns steps rowsErr acc
  = (acc ++ map columnName (fetchedRows steps), fetchOutcome steps rowsErr).
Proof.
  revert acc; induction steps as [|[arr|e] steps IH]; intros acc; cbn.
  - now rewrite app_nil_r.
  - rewrite IH, <- app_assoc; reflexivity.
  - now rewrite app_nil_r.
Qed.

End Cursors.

(** ** Building the dumper and opening the source *)

Lemma newSqlite3Dumper_fold (opts : list Option) :
  newSqlite3Dumper opts = fold_left (fun d option => option d) opts defaultDumper.
Proof. destruct opts; reflexivity. Qed.

(** X1: the dumper starts from the defaults, no migration, no drops and
    transaction wrapping, and the options are applied to it from left to
    right, each to the dumper the previous ones left; the early return
    for an empty list changes nothing.  A dumper built from two lists of
    options in a row is thus the dumper of the first list updated by the
    options of the second. *)
Theorem newSqlite3Dumper_options_in_order :
  forall (first later : list Option),
    newSqlite3Dumper first
    = fold_left (fun d option => option d) first (mkDumper false false true)
    /\ newSqlite3Dumper (first ++ later)
       = fold_left (fun d option => option d) later (newSqlite3Dumper first).
Proof.
  intros first later; split.
  - apply newSqlite3Dumper_fold.
  - now rewrite !newSqlite3Dumper_fold, fold_left_app.
Qed.

(** X2: [dump] looks at the result of [os.Stat] only to recognise a
    missing file.  Any other outcome of [os.Stat], also a failure such as
    a refused permission, is dropped: when the driver opens the handle,
    [Dump] behaves as [DumpDB] on it. *)
Theorem Dump_ignores_other_stat_errors :
  forall (env : World) (dbName : string) (db : DB) (out : Writer)
         (opts : list Option),
    os_IsNotExist (os_Stat env dbName) = false ->
    sql_Open env dbName = inr db ->
    Dump env dbName out opts = DumpDB db out opts.
Proof.
  intros env dbName db out opts Hstat Hopen.
  unfold Dump, DumpDB, dump; now rewrite Hstat, Hopen.
Qed.

Lemma Dump_ignores_other_stat_errors_witness :
  os_Stat RowSamples.lockedWorld "locked.db"
  = Some (ErrStat "locked.db" "permission denied")
  /\ os_IsNotExist (os_Stat RowSamples.lockedWorld "locked.db") = false
  /\ sql_Open RowSamples.lockedWorld "locked.db" = inr Samples.db
  /\ Dump RowSamples.lockedWorld "locked.db" Samples.buffer []
     = DumpDB Samples.db Samples.buffer [].
Proof.
  split; [reflexivity|].
  split; [reflexivity|].
  split; [reflexivity|].
  apply (Dump_ignores_other_stat_errors
           RowSamples.lockedWorld "locked.db" Samples.db Samples.buffer []);
    reflexivity.
Defined.

(** ** Failing catalog queries *)

(** X3: [getSchemas] returns the rows scanned before the first failing
    [Scan], in cursor order, together with the error of that [Scan]; when
    no [Scan] fails it returns every row together with [rows.Err()], so an
    error after the last row comes with the complete slice. *)
Theorem getSchemas_outcome :
  forall (db : DB) (q : query) (cursor : list scan) (rowsErr : option error),
    db q = Rows cursor rowsErr ->
    getSchemas db q = (scannedRows cursor, scanOutcome cursor rowsErr).
Proof.
  intros db q cursor rowsErr Hq.
  unfold getSchemas; rewrite Hq; apply scanRows_outcome.
Qed.

Lemma getSchemas_outcome_witness :
  RowSamples.brokenDB TableSchemas
  = Rows [Scanned Samples.docs_data; Scanned Samples.users;
          ScanFails (ErrDriver "database disk image is malformed");
          Scanned Samples.sequence] None
  /\ getSchemas RowSamples.brokenDB TableSchemas
     = ([Samples.docs_data; Samples.users],
        Some (ErrDriver "database disk image is malformed")).
Proof.
  split; [reflexivity|].
  apply (getSchemas_outcome
           RowSamples.brokenDB TableSchemas
           [Scanned Samples.docs_data; Scanned Samples.users;
            ScanFails (ErrDriver "database disk image is malformed");
            Scanned Samples.sequence] None).
  reflexivity.
Defined.

(** X4: when one of the two catalog queries fails, [dumpDB] returns that
    error and the only write it has attempted is the opening of the
    envelope: no statement is written for the rows that were read, also
    when the table query succeeded and the other query failed, and no
    COMMIT follows the BEGIN. *)
Theorem dumpDB_catalog_failure :
  forall (s3d : sqlite3dumper) (db : DB) (w : Writer) (e : error),
    snd (getSchemas db TableSchemas) = Some e
    \/ (snd (getSchemas db TableSchemas) = None
        /\ snd (getSchemas db OtherSchemas) = Some e) ->
    dumpDB s3d db w
    = (Some e, writeAll w (if wrapWithTransaction s3d
                           then [("BEGIN TRANSACTION;" ++ LF)%string] else [])).
Proof.
  intros s3d db w e Hfail; unfold dumpDB.
  rewrite envelope_writeAll.
  destruct (getSchemas db TableSchemas) as [tables [et|]];
    destruct Hfail as [Ht|[Ht Ho]]; cbn in Ht; try discriminate.
  - now injection Ht as ->.
  - destruct (getSchemas db OtherSchemas) as [others [eo|]]; cbn in Ho;
      [now injection Ho as -> | discriminate].
Qed.

Lemma dumpDB_catalog_failure_witness :
  (snd (getSchemas RowSamples.brokenDB TableSchemas)
   = Some (ErrDriver "database disk image is malformed")
   \/ (snd (getSchemas RowSamples.brokenDB TableSchemas) = None
       /\ snd (getSchemas RowSamples.brokenDB OtherSchemas)
          = Some (ErrDriver "database disk image is malformed")))
  /\ dumpDB Samples.withDrops RowSamples.brokenDB Samples.buffer
     = (Some (ErrDriver "database disk image is malformed"),
        mkWriter [("BEGIN TRANSACTION;" ++ LF)%string] []).
Proof.
  split; [left; reflexivity|].
  apply (dumpDB_catalog_failure Samples.withDrops RowSamples.brokenDB Samples.buffer).
  left; reflexivity.
Defined.

(** X5: the errors [dumpDB] can return.  A non-nil result is the error of
    the table query, or the error of the other query after the table query
    succeeded, or, with drop-if-exists enabled and both queries
    successful, the wrapped failure of the write of one of the DROP
    statements.  No other write failure is ever returned. *)
Theorem dumpDB_error_sources :
  forall (s3d : sqlite3dumper) (db : DB) (w : Writer) (e : error),
    fst (dumpDB s3d db w) = Some e ->
    snd (getSchemas db TableSchemas) = Some e
    \/ (snd (getSchemas db TableSchemas) = None
        /\ snd (getSchemas db OtherSchemas) = Some e)
    \/ (dropIfExists s3d = true
        /\ snd (getSchemas db TableSchemas) = None
        /\ snd (getSchemas db OtherSchemas) = None
        /\ exists statement cause,
            e = FailedToWrite statement cause
            /\ In statement (dropLines (fst (getSchemas db OtherSchemas)
                                        ++ fst (getSchemas db TableSchemas)))
            /\ In (Some cause) (faults w)).
Proof.
  intros s3d db w e; unfold dumpDB.
  rewrite envelope_writeAll.
  destruct (getSchemas db TableSchemas) as [tables [et|]]; cbn [fst snd].
  { intros [= ->]; now left. }
  destruct (getSchemas db OtherSchemas) as [others [eo|]]; cbn [fst snd].
  { intros [= ->]; right; left; now split. }
  destruct (dropIfExists s3d); [|discriminate].
  set (w1 := writeAll w _).
  destruct (writeDropStatements w1 (others ++ tables)) as [[err|] w2] eqn:Hdrop;
    [|discriminate].
  intros [= ->]; right; right.
  destruct (writeDropStatements_error_source _ _ _ _ Hdrop)
    as (statement & cause & -> & Hst & Hcause).
  repeat split; try reflexivity.
  exists statement, cause; repeat split; try assumption.
  unfold w1, writeAll in Hcause; cbn [faults] in Hcause.
  revert Hcause; generalize (faults w) as script.
  destruct (wrapWithTransaction s3d); cbn; [|tauto].
  intros [|x script]; cbn; tauto.
Qed.

Lemma dumpDB_error_sources_witness :
  fst (dumpDB Samples.withDrops Samples.db RowSamples.fullDisk)
  = Some (FailedToWrite (dropTableLine Samples.docs_data)
                        (ErrWrite "no space left on device"))
  /\ (snd (getSchemas Samples.db TableSchemas)
      = Some (FailedToWrite (dropTableLine Samples.docs_data)
                            (ErrWrite "no space left on device"))
      \/ (snd (getSchemas Samples.db TableSchemas) = None
          /\ snd (getSchemas Samples.db OtherSchemas)
             = Some (FailedToWrite (dropTableLine Samples.docs_data)
                                   (ErrWrite "no space left on device")))
      \/ (dropIfExists Samples.withDrops = true
          /\ snd (getSchemas Samples.db TableSchemas) = None
          /\ snd (getSchemas Samples.db OtherSchemas) = None
          /\ exists statement cause,
              FailedToWrite (dropTableLine Samples.docs_data)
                            (ErrWrite "no space left on device")
              = FailedToWrite statement cause
              /\ In statement (dropLines (fst (getSchemas Samples.db OtherSchemas)
                                          ++ fst (getSchemas Samples.db TableSchemas)))
              /\ In (Some cause) (faults RowSamples.fullDisk))).
Proof.
  split; [reflexivity|].
  apply (dumpDB_error_sources Samples.withDrops Samples.db RowSamples.fullDisk).
  reflexivity.
Defined.

(** ** Failing writes *)

(** X6: [writeDropStatements] stops at the first write that fails.  When
    the first [k] writes succeed and the next one fails with [e], the
    stream has received the first [k] DROP statements, then the bytes of
    the failing statement that the writer accepted, and no more; the
    schemas after the failing one are not visited, and the result is [e]
    wrapped together with the statement that could not be written. *)
Theorem writeDropStatements_first_failure :
  forall (schemas : list schema) (w : Writer) (k : nat) (e : error)
         (rest : list (option error)),
    faults w = repeat None k ++ Some e :: rest ->
    k < List.length (dropLines schemas) ->
    writeDropStatements w schemas
    = (Some (FailedToWrite (nth k (dropLines schemas) EmptyString) e),
       mkStream (written w ++ firstn k (dropLines schemas)
                 ++ fragment (hd 0 (short w))
                             (nth k (dropLines schemas) EmptyString))
                rest (tl (short w))).
Proof. exact writeDropStatements_stops. Qed.

Lemma writeDropStatements_first_failure_witness :
  faults RowSamples.tornDisk
  = repeat None 2 ++ Some (ErrWrite "no space left on device") :: [None]
  /\ 2 < List.length (dropLines (Samples.others ++ Samples.tables))
  /\ writeDropStatements RowSamples.tornDisk (Samples.others ++ Samples.tables)
     = (Some (FailedToWrite (dropTableLine Samples.stat1)
                            (ErrWrite "no space left on device")),
        mkStream [dropIndexLine Samples.users_name;
                  dropTableLine Samples.docs_data;
                  "DROP TABLE "%string]
                 [None] []).
Proof.
  split; [reflexivity|].
  split; [repeat constructor|].
  apply (writeDropStatements_first_failure
           (Samples.others ++ Samples.tables) RowSamples.tornDisk 2
           (ErrWrite "no space left on device") [None]).
  - reflexivity.
  - repeat constructor.
Defined.

(** X7: a write failure in the drop phase ends the dump: the stream holds
    the opening of the envelope, the DROP statements written so far and
    the bytes of the failing DROP statement that the writer accepted;
    neither a CREATE statement nor the COMMIT follows. *)
Theorem dumpDB_drop_failure :
  forall (s3d : sqlite3dumper) (db : DB) (w : Writer)
         (tables others : list schema) (k : nat) (e : error)
         (rest : list (option error)),
    dropIfExists s3d = true ->
    answers db tables others ->
    faults w = repeat None (List.length (beginLines s3d) + k) ++ Some e :: rest ->
    k < List.length (dropLines (others ++ tables)) ->
    dumpDB s3d db w
    = (Some (FailedToWrite (nth k (dropLines (others ++ tables)) EmptyString) e),
       mkStream (written w ++ beginLines s3d
                 ++ firstn k (dropLines (others ++ tables))
                 ++ fragment (hd 0 (short w))
                             (nth k (dropLines (others ++ tables)) EmptyString))
                rest (tl (short w))).
Proof.
  intros s3d db w tables others k e rest Hdrop [Ht Ho] Hscript Hk.
  unfold dumpDB; rewrite Ht, Ho, Hdrop.
  set (w1 := if wrapWithTransaction s3d then _ else w).
  assert (H1 : written w1 = written w ++ beginLines s3d
               /\ faults w1 = repeat None k ++ Some e :: rest
               /\ short w1 = short w).
  { unfold w1, beginLines in *; destruct (wrapWithTransaction s3d); cbn in Hscript.
    - unfold Write; rewrite Hscript; now cbn.
    - now rewrite app_nil_r. }
  destruct H1 as (Hw1 & Hf1 & Hs1).
  rewrite (writeDropStatements_stops _ w1 k e rest Hf1 Hk), Hw1, Hs1, <- app_assoc.
  reflexivity.
Qed.

Lemma dumpDB_drop_failure_witness :
  dropIfExists Samples.withDrops = true
  /\ answers Samples.db Samples.tables Samples.others
  /\ faults RowSamples.tornDisk
     = repeat None (List.length (beginLines Samples.withDrops) + 1)
       ++ Some (ErrWrite "no space left on device") :: [None]
  /\ 1 < List.length (dropLines (Samples.others ++ Samples.tables))
  /\ dumpDB Samples.withDrops Samples.db RowSamples.tornDisk
     = (Some (FailedToWrite (dropTableLine Samples.docs_data)
                            (ErrWrite "no space left on device")),
        mkStream [("BEGIN TRANSACTION;" ++ LF)%string;
                  dropIndexLine Samples.users_name;
                  "DROP TABLE "%string] [None] []).
Proof.
  split; [reflexivity|].
  split; [split; reflexivity|].
  split; [reflexivity|].
  split; [repeat constructor|].
  apply (dumpDB_drop_failure
           Samples.withDrops Samples.db RowSamples.tornDisk
           Samples.tables Samples.others 1
           (ErrWrite "no space left on device") [None]).
  - reflexivity.
  - split; reflexivity.
  - reflexivity.
  - repeat constructor.
Defined.

(** X8: without drops, [dumpDB] on any writer returns nil and attempts
    every write of the envelope, the table phase and the other-schema
    phase, whatever the earlier ones did.  The stream receives, in order,
    each statement whose write succeeded and, of each statement whose
    write failed, the bytes the writer accepted; so a dump may lack
    statements in the middle, or hold a truncated one, and still end with
    COMMIT. *)
Theorem dumpDB_without_drops :
  forall (s3d : sqlite3dumper) (db : DB) (w : Writer) (tables others : list schema),
    dropIfExists s3d = false ->
    answers db tables others ->
    dumpDB s3d db w
    = (None,
       writeAll w (beginLines s3d ++ tableLines s3d tables
                   ++ otherLines others ++ commitLines s3d)).
Proof.
  intros s3d db w tables others Hdrop [Ht Ho].
  unfold dumpDB; rewrite Ht, Ho, Hdrop.
  rewrite !envelope_writeAll, tableLoop_writeAll, otherLoop_writeAll.
  rewrite !writeAll_app; reflexivity.
Qed.

Lemma dumpDB_without_drops_witness :
  dropIfExists (newSqlite3Dumper []) = false
  /\ answers Samples.db Samples.tables Samples.others
  /\ dumpDB (newSqlite3Dumper []) Samples.db RowSamples.tornDisk
     = (None,
        mkStream [("BEGIN TRANSACTION;" ++ LF)%string;
                  analyzeMaster;
                  "DELETE FROM"%string;
                  terminated (SQL Samples.users);
                  terminated (SQL Samples.users_name);
                  terminated (SQL Samples.users_audit);
                  terminated (SQL Samples.active_users);
                  ("COMMIT;" ++ LF)%string] [] []).
Proof.
  split; [reflexivity|].
  split; [split; reflexivity|].
  apply (dumpDB_without_drops
           (newSqlite3Dumper []) Samples.db RowSamples.tornDisk
           Samples.tables Samples.others).
  - reflexivity.
  - split; reflexivity.
Defined.

(** ** How dumps compose *)

(** X9: two dumps of the same database into one reliable stream leave the
    statements of one dump twice in a row after what the stream held. *)
Theorem dumpDB_twice :
  forall (s3d : sqlite3dumper) (db : DB) (w : Writer) (tables others : list schema),
    reliable w ->
    answers db tables others ->
    exists w1 w2 once,
      dumpDB s3d db w = (None, w1)
      /\ dumpDB s3d db w1 = (None, w2)
      /\ written w1 = written w ++ once
      /\ written w2 = written w ++ once ++ once.
Proof.
  intros s3d db w tables others Hrel Hans.
  destruct (dumpDB_reliable s3d db w tables others Hrel Hans)
    as (w1 & Hrun1 & Hrel1 & Hout1).
  destruct (dumpDB_reliable s3d db w1 tables others Hrel1 Hans)
    as (w2 & Hrun2 & _ & Hout2).
  exists w1, w2; eexists; repeat split; try eassumption.
  now rewrite Hout2, Hout1, <- app_assoc.
Qed.

Lemma dumpDB_twice_witness :
  reliable Samples.buffer
  /\ answers Samples.db Samples.tables Samples.others
  /\ exists w1 w2 once,
      dumpDB Samples.withDrops Samples.db Samples.buffer = (None, w1)
      /\ dumpDB Samples.withDrops Samples.db w1 = (None, w2)
      /\ written w1 = written Samples.buffer ++ once
      /\ written w2 = written Samples.buffer ++ once ++ once.
Proof.
  split; [constructor|].
  split; [split; reflexivity|].
  apply (dumpDB_twice Samples.withDrops Samples.db Samples.buffer
                      Samples.tables Samples.others).
  - constructor.
  - split; reflexivity.
Defined.

(** X10: transaction wrapping adds the two envelope statements and
    nothing else: on a reliable stream the wrapped dump is BEGIN, then
    what the dump without wrapping writes to an empty buffer, then
    COMMIT. *)
Theorem wrapWithTransaction_only_adds_envelope :
  forall (mig drops : bool) (db : DB) (w : Writer) (tables others : list schema),
    reliable w ->
    answers db tables others ->
    written (snd (dumpDB (mkDumper mig drops true) db w))
    = written w
      ++ [("BEGIN TRANSACTION;" ++ LF)%string]
      ++ written (snd (dumpDB (mkDumper mig drops false) db (mkWriter [] [])))
      ++ [("COMMIT;" ++ LF)%string].
Proof.
  intros mig drops db w tables others Hrel Hans.
  destruct (dumpDB_reliable (mkDumper mig drops true) db w tables others Hrel Hans)
    as (w1 & Hrun1 & _ & Hout1).
  destruct (dumpDB_reliable (mkDumper mig drops false) db (mkWriter [] [])
                            tables others (reliable_buffer []) Hans)
    as (w2 & Hrun2 & _ & Hout2).
  rewrite Hrun1, Hrun2; cbn [snd]; rewrite Hout1, Hout2.
  cbn [snd written beginLines commitLines wrapWithTransaction dropIfExists app].
  unfold tableLines, emitsStatement; cbn [migration].
  now rewrite <- !app_assoc.
Qed.

Lemma wrapWithTransaction_only_adds_envelope_witness :
  reliable Samples.buffer
  /\ answers Samples.db Samples.tables Samples.others
  /\ written (snd (dumpDB (mkDumper false true true) Samples.db Samples.buffer))
     = written Samples.buffer
       ++ [("BEGIN TRANSACTION;" ++ LF)%string]
       ++ written (snd (dumpDB (mkDumper false true false) Samples.db (mkWriter [] [])))
       ++ [("COMMIT;" ++ LF)%string].
Proof.
  split; [constructor|].
  split; [split; reflexivity|].
  apply (wrapWithTransaction_only_adds_envelope
           false true Samples.db Samples.buffer Samples.tables Samples.others).
  - constructor.
  - split; reflexivity.
Defined.

(** ** Row statements *)

(** X11: doubling the double quotes loses nothing: two column names with
    the same escaped form are the same name, so distinct columns stay
    distinct inside the generated [quote(...)] calls. *)
Theorem doubleQuotes_injective :
  forall (a b : string), doubleQuotes a = doubleQuotes b -> a = b.
Proof.
  induction a as [|c a IH]; intros [|d b]; cbn [doubleQuotes].
  - reflexivity.
  - destruct (Ascii.eqb d (ascii_of_nat 34)); discriminate.
  - destruct (Ascii.eqb c (ascii_of_nat 34)); discriminate.
  - destruct (Ascii.eqb_spec c (ascii_of_nat 34)) as [Hc|Hc];
      destruct (Ascii.eqb_spec d (ascii_of_nat 34)) as [Hd|Hd].
    + intros [= -> _ Hrest]; f_equal; now apply IH.
    + intros [= Hcd Hrest]; subst d; contradiction.
    + intros [= Hcd Hrest]; subst c; contradiction.
    + intros [= -> Hrest]; f_equal; now apply IH.
Qed.

Lemma doubleQuotes_injective_witness :
  doubleQuotes ("a" ++ DQ ++ "b") = doubleQuotes ("a" ++ DQ ++ "b")
  /\ ("a" ++ DQ ++ "b")%string = ("a" ++ DQ ++ "b")%string.
Proof.
  split; [reflexivity|].
  apply (doubleQuotes_injective ("a" ++ DQ ++ "b") ("a" ++ DQ ++ "b")).
  reflexivity.
Defined.

(** X12: [pragmaTableInfo] returns one name per row scanned before the
    first failing [Scan], in cursor order, with the error of that [Scan]
    or else [rows.Err()].  The name is the second cell when it is a string
    or a byte slice, and the empty string for any other cell, without an
    error. *)
Theorem pragmaTableInfo_outcome :
  forall (db : RowDB) (tableName : string) (steps : list (fetch infoRow))
         (rowsErr : option error),
    tableInfo db (pragmaQuery tableName) = Cursor steps rowsErr ->
    pragmaTableInfo db tableName
    = (map columnName (fetchedRows steps), fetchOutcome steps rowsErr)
    /\ Forall (fun arr => match arr1 arr with
                          | CString _ | CBytes _ => True
                          | _ => columnName arr = EmptyString
                          end) (fetchedRows steps).
Proof.
  intros db tableName steps rowsErr Hq; split.
  - unfold pragmaTableInfo; rewrite Hq; apply scanColumns_outcome.
  - apply Forall_forall; intros arr _; unfold columnName.
    destruct (arr1 arr); trivial.
Qed.

Lemma pragmaTableInfo_outcome_witness :
  tableInfo RowSamples.db (pragmaQuery "users")
  = Cursor [Fetched RowSamples.idColumn; Fetched RowSamples.nameColumn] None
  /\ pragmaTableInfo RowSamples.db "users" = (["id"; "name"], None).
Proof.
  split; [reflexivity|].
  apply (pragmaTableInfo_outcome
           RowSamples.db "users"
           [Fetched RowSamples.idColumn; Fetched RowSamples.nameColumn] None).
  reflexivity.
Defined.

Section InsertLoop.

Lemma writeInserts_reliable (steps : list (fetch string)) (rowsErr : option error) :
  forall (w : Writer),
    reliable w ->
    exists w',
      writeInserts w steps rowsErr = (fetchOutcome steps rowsErr, w')
      /\ written w' = written w ++ map terminated (fetchedRows steps)
      /\ reliable w'.
Proof.
  induction steps as [|[insert|e] steps IH]; intros w Hrel; cbn.
  - exists w; now rewrite app_nil_r.
  - destruct (Write_reliable w (terminated insert) Hrel) as (Hcall & Hw & Hrel').
    rewrite Hcall.
    destruct (IH _ Hrel') as (w' & Hrun & Hout & Hfin).
    exists w'; repeat split; try assumption.
    now rewrite Hout, Hw, <- app_assoc.
  - exists w; now rewrite app_nil_r.
Qed.

Lemma writeInserts_stops (inserts : list string) :
  forall (w : Writer) (more : list (fetch string)) (rowsErr : option error)
         (k : nat) (e : error) (rest : list (option error)),
    faults w = repeat None k ++ Some e :: rest ->
    k < List.length inserts ->
    writeInserts w (map Fetched inserts ++ more) rowsErr
    = (Some e,
       mkStream (written w ++ map terminated (firstn k inserts)
                 ++ fragment (hd 0 (short w))
                             (terminated (nth k inserts EmptyString)))
                rest (tl (short w))).
Proof.
  induction inserts as [|insert inserts IH]; intros w more rowsErr k e rest Hscript Hk.
  - inversion Hk.
  - cbn [map app writeInserts]; unfold Write; rewrite Hscript.
    destruct k as [|k]; cbn [repeat app].
    + reflexivity.
    + cbn [List.length] in Hk.
      rewrite (IH (mkStream (written w ++ [terminated insert])
                            (repeat None k ++ Some e :: rest) (short w))
                  more rowsErr k e rest eq_refl (proj2 (Nat.succ_lt_mono _ _) Hk)).
      cbn; now rewrite <- app_assoc.
Qed.

End InsertLoop.

(** X13: on a reliable stream, once the column names are known,
    [writeInsStmtsForTableRows] sends the positional query, or in
    migration mode the query with the column list, and writes one line per
    row scanned before the first failing [Scan], each row text followed by
    a semicolon and a line feed, in cursor order.  It returns the error of
    that [Scan], or else [rows.Err()], after the rows have been written. *)
Theorem writeInsStmtsForTableRows_outcome :
  forall (s3d : sqlite3dumper) (w : Writer) (db : RowDB) (tableName : string)
         (columnNames : list string) (steps : list (fetch string))
         (rowsErr : option error),
    reliable w ->
    pragmaTableInfo db tableName = (columnNames, None) ->
    selectText db
      (if migration s3d
       then insertQueryNamed tableName columnNames (map columnSelect columnNames)
       else insertQuery tableName (map columnSelect columnNames))
    = Cursor steps rowsErr ->
    exists w',
      writeInsStmtsForTableRows s3d w db tableName
      = (fetchOutcome steps rowsErr, w')
      /\ written w' = written w ++ map terminated (fetchedRows steps).
Proof.
  intros s3d w db tableName columnNames steps rowsErr Hrel Hcols Hrows.
  unfold writeInsStmtsForTableRows; rewrite Hcols; cbn zeta; rewrite Hrows.
  destruct (writeInserts_reliable steps rowsErr w Hrel) as (w' & Hrun & Hout & _).
  now exists w'.
Qed.

Lemma writeInsStmtsForTableRows_outcome_witness :
  reliable Samples.buffer
  /\ pragmaTableInfo RowSamples.db "users" = (["id"; "name"], None)
  /\ selectText RowSamples.db
       (if migration (mkDumper true false true)
        then insertQueryNamed "users" ["id"; "name"] (map columnSelect ["id"; "name"])
        else insertQuery "users" (map columnSelect ["id"; "name"]))
     = Cursor (map Fetched RowSamples.inserts) None
  /\ exists w',
      writeInsStmtsForTableRows (mkDumper true false true) Samples.buffer
                                RowSamples.db "users"
      = (fetchOutcome (map Fetched RowSamples.inserts) None, w')
      /\ written w'
         = written Samples.buffer
           ++ map terminated (fetchedRows (map Fetched RowSamples.inserts)).
Proof.
  split; [constructor|].
  split; [reflexivity|].
  split; [reflexivity|].
  apply (writeInsStmtsForTableRows_outcome
           (mkDumper true false true) Samples.buffer RowSamples.db "users"
           ["id"; "name"] (map Fetched RowSamples.inserts) None).
  - constructor.
  - reflexivity.
  - reflexivity.
Defined.

(** X14: [writeInsStmtsForTableRows] stops at the first write that fails
    and returns the error of the writer as it is, not wrapped: when the
    first [k] writes succeed and the next one fails with [e], the stream
    has received the first [k] rows, then the bytes of the failing row
    that the writer accepted, and the result is [e]. *)
Theorem writeInsStmtsForTableRows_write_failure :
  forall (s3d : sqlite3dumper) (w : Writer) (db : RowDB) (tableName : string)
         (columnNames inserts : list string) (more : list (fetch string))
         (rowsErr : option error) (k : nat) (e : error)
         (rest : list (option error)),
    pragmaTableInfo db tableName = (columnNames, None) ->
    selectText db
      (if migration s3d
       then insertQueryNamed tableName columnNames (map columnSelect columnNames)
       else insertQuery tableName (map columnSelect columnNames))
    = Cursor (map Fetched inserts ++ more) rowsErr ->
    faults w = repeat None k ++ Some e :: rest ->
    k < List.length inserts ->
    writeInsStmtsForTableRows s3d w db tableName
    = (Some e,
       mkStream (written w ++ map terminated (firstn k inserts)
                 ++ fragment (hd 0 (short w))
                             (terminated (nth k inserts EmptyString)))
                rest (tl (short w))).
Proof.
  intros s3d w db tableName columnNames inserts more rowsErr k e rest
         Hcols Hrows Hscript Hk.
  unfold writeInsStmtsForTableRows; rewrite Hcols; cbn zeta; rewrite Hrows.
  now apply writeInserts_stops.
Qed.

Lemma writeInsStmtsForTableRows_write_failure_witness :
  pragmaTableInfo RowSamples.db "users" = (["id"; "name"], None)
  /\ selectText RowSamples.db
       (if migration (mkDumper false false true)
        then insertQueryNamed "users" ["id"; "name"] (map columnSelect ["id"; "name"])
        else insertQuery "users" (map columnSelect ["id"; "name"]))
     = Cursor (map Fetched RowSamples.inserts ++ []) None
  /\ faults RowSamples.tornDisk
     = repeat None 2 ++ Some (ErrWrite "no space left on device") :: [None]
  /\ 2 < List.length RowSamples.inserts
  /\ writeInsStmtsForTableRows (mkDumper false false true) RowSamples.tornDisk
                               RowSamples.db "users"
     = (Some (ErrWrite "no space left on device"),
        mkStream (map terminated (firstn 2 RowSamples.inserts)
                  ++ ["INSERT INTO"%string]) [None] []).
Proof.
  split; [reflexivity|].
  split; [reflexivity|].
  split; [reflexivity|].
  split; [repeat constructor|].
  apply (writeInsStmtsForTableRows_write_failure
           (mkDumper false false true) RowSamples.tornDisk RowSamples.db "users"
           ["id"; "name"] RowSamples.inserts [] None 2
           (ErrWrite "no space left on device") [None]).
  - reflexivity.
  - reflexivity.
  - reflexivity.
  - repeat constructor.
Defined.
